(** * The document-processing HTTP handler of [src/main.py]

    A shallow embedding of [process_document], the only function of the
    repository: a Cloud-Functions HTTP handler that downloads a file,
    sends it to Document AI, pushes the extracted text to Airtable and
    answers the caller.

    The three collaborators ([requests.get], the Document AI client and
    [requests.post]) are outside the repository.  They are modelled as an
    environment of oracles: each call either returns a value or raises a
    Python exception.  The handler threads a trace of the calls it made
    (with their outcomes), so that statements such as "no downstream
    service is contacted" are statements about that trace.

    Writes to standard output ([print]) are not part of the model: they
    are visible neither in the response nor in any downstream call.  The
    expressions evaluated only to be printed read attributes of
    well-typed library objects and cannot raise. *)

From Stdlib Require Import ZArith String List DecimalString PrimFloat.
From stdpp Require Import gmap strings.

Set Warnings "-register-all".
Local Open Scope string_scope.
Local Open Scope Z_scope.

(** ** Python values, exceptions and the few built-in operations used *)

Module Py.

(** Where an exception sits with respect to the two [except] clauses of
    the handler: [except requests.exceptions.RequestException] and
    [except Exception].  [BaseExceptionOnly] stands for the classes
    deriving from [BaseException] but not from [Exception]
    ([KeyboardInterrupt], [SystemExit], [GeneratorExit]). *)
Inductive exc_class := RequestException | OtherException | BaseExceptionOnly.

(** An exception: its class and [str(e)]. *)
Record exn := { exc_cls : exc_class; exc_str : string }.

Definition is_request_exception (e : exn) : bool :=
  match exc_cls e with RequestException => true | _ => false end.

(** [isinstance(e, Exception)]: [RequestException] derives from
    [IOError], hence from [Exception]. *)
Definition is_exception (e : exn) : bool :=
  match exc_cls e with BaseExceptionOnly => false | _ => true end.

(** The outcome of evaluating an expression or a call. *)
Inductive result (A : Type) := Ok (a : A) | Raise (e : exn).
Arguments Ok {A} a.
Arguments Raise {A} e.

(** A decoded JSON document, as [json.loads] builds it: [None], [bool],
    [int], [float], [str], [list], [dict]. *)
Inductive json :=
| JNull
| JBool (b : bool)
| JInt (z : Z)
| JFloat (f : float)
| JStr (s : string)
| JArr (l : list json)
| JObj (m : gmap string json).

(** Truth value of an object ([not x] is its negation). *)
Definition truthy (v : json) : bool :=
  match v with
  | JNull => false
  | JBool b => b
  | JInt z => negb (z =? 0)
  | JFloat f => negb (PrimFloat.eqb f 0%float)
  | JStr s => negb (String.eqb s "")
  | JArr l => match l with [] => false | _ => true end
  | JObj m => negb (bool_decide (m = ∅))
  end.

Definition type_name (v : json) : string :=
  match v with
  | JNull => "NoneType"
  | JBool _ => "bool"
  | JInt _ => "int"
  | JFloat _ => "float"
  | JStr _ => "str"
  | JArr _ => "list"
  | JObj _ => "dict"
  end.

Definition TypeError (msg : string) : exn :=
  {| exc_cls := OtherException; exc_str := msg |}.

(** [str(KeyError(k))] is the [repr] of the key. *)
Definition KeyError (k : string) : exn :=
  {| exc_cls := OtherException; exc_str := "'" +:+ k +:+ "'" |}.

Definition is_substring (needle s : string) : bool :=
  match String.index 0 needle s with Some _ => true | None => false end.

(** [k in v] for a string literal [k]: key membership in a dict,
    element membership in a list (only a [str] element can be equal to
    [k]), substring test in a str, [TypeError] otherwise.  The wording
    of the messages is CPython's. *)
Definition contains (k : string) (v : json) : result bool :=
  match v with
  | JObj m => Ok (bool_decide (is_Some (m !! k)))
  | JArr l =>
      Ok (existsb (fun x => match x with JStr s => String.eqb s k | _ => false end) l)
  | JStr s => Ok (is_substring k s)
  | _ => Raise (TypeError ("argument of type '" +:+ type_name v +:+ "' is not iterable"))
  end.

(** [v[k]] for a string literal [k]. *)
Definition getitem (v : json) (k : string) : result json :=
  match v with
  | JObj m => match m !! k with Some x => Ok x | None => Raise (KeyError k) end
  | JArr _ => Raise (TypeError "list indices must be integers or slices, not str")
  | JStr _ => Raise (TypeError "string indices must be integers, not 'str'")
  | _ => Raise (TypeError ("'" +:+ type_name v +:+ "' object is not subscriptable"))
  end.

(** [str(n)] for an [int]. *)
Definition str_int (n : Z) : string := NilZero.string_of_int (Z.to_int n).

(** [f"{x}"] for the value of [os.getenv]: an unset variable is [None]
    and formats as the text None. *)
Definition format_env (x : option string) : string :=
  match x with Some s => s | None => "None" end.

End Py.
Export Py.

(** ** The objects of the libraries the handler talks to *)

Module requests.
(** The attributes of [requests.Response] that the handler reads. *)
Record Response := {
  status_code : Z;
  content : list Byte.byte;
  text : string
}.
End requests.

Module documentai.
Record Entity := {
  type_ : string;
  confidence : float;
  mention_text : string
}.

Record Document := {
  text : string;
  mime_type : string;
  pages : nat;             (* only [len(document.pages)] is read *)
  entities : list Entity
}.

Record RawDocument := {
  content : list Byte.byte;
  raw_mime_type : string
}.

Record ProcessRequest := {
  name : string;
  raw_document : RawDocument
}.

Record ProcessResponse := { document : Document }.
End documentai.

(** The incoming request: its method and what [request.get_json()] does
    on it (returns the decoded body, returns [None], or raises). *)
Record Request := {
  method : string;
  get_json : result json
}.

(** Module-level configuration, read with [os.getenv] at import time. *)
Record Config := {
  PROJECT_ID : option string;
  LOCATION : option string;
  PROCESSOR_ID : option string;
  BUCKET_NAME : option string;
  AIRTABLE_API_KEY : option string;
  AIRTABLE_BASE_ID : option string;
  AIRTABLE_TABLE_NAME : option string
}.

(** The outside world during one invocation. *)
Record Env := {
  requests_get : json -> result requests.Response;
  DocumentProcessorServiceClient : result unit;
  client_process_document :
    documentai.ProcessRequest -> result documentai.ProcessResponse;
  requests_post :
    string -> gmap string string -> json -> result requests.Response
}.

(** What the handler returns: the tuple (body, status, headers).  The body
    is either a plain string or the result of [jsonify]. *)
Inductive Body := Text (s : string) | Jsonify (j : json).

Record Response := {
  body : Body;
  status : Z;
  resp_headers : gmap string string
}.

(** ** Calls to the outside world and their trace *)

Inductive event :=
| EvGet (url : json) (out : result requests.Response)
| EvClient (out : result unit)
| EvProcess (req : documentai.ProcessRequest)
            (out : result documentai.ProcessResponse)
| EvPost (url : string) (hdrs : gmap string string) (data : json)
         (out : result requests.Response).

Definition trace := list event.

(** Computations that may raise and that log the external calls made. *)
Definition M (A : Type) : Type := trace -> result A * trace.

#[global] Instance M_ret : MRet M := fun A a tr => (Ok a, tr).

#[global] Instance M_bind : MBind M := fun A B k m tr =>
  match m tr with
  | (Ok a, tr') => k a tr'
  | (Raise e, tr') => (Raise e, tr')
  end.

(** An expression evaluated without any external call. *)
Definition eval {A} (r : result A) : M A := fun tr => (r, tr).

(** An external call: its outcome is appended to the trace. *)
Definition call {A} (r : result A) (ev : result A -> event) : M A :=
  fun tr => (r, (tr ++ [ev r])%list).

(** [try: m  except <clause> as e: h e], where [clause] tells which
    exceptions the clause catches; the others propagate. *)
Definition try_except {A} (m : M A) (clause : exn -> bool) (h : exn -> M A)
  : M A :=
  fun tr =>
    match m tr with
    | (Ok a, tr') => (Ok a, tr')
    | (Raise e, tr') => if clause e then h e tr' else (Raise e, tr')
    end.

(** ** The handler *)

Section Handler.

Variable env : Env.
Variable cfg : Config.

(** Lines 23-28. *)
Definition preflight_headers : gmap string string :=
  {[ "Access-Control-Allow-Origin" := "*";
     "Access-Control-Allow-Methods" := "POST";
     "Access-Control-Allow-Headers" := "Content-Type";
     "Access-Control-Max-Age" := "3600" ]}.

(** Line 31. *)
Definition headers : gmap string string :=
  {[ "Access-Control-Allow-Origin" := "*" ]}.

(** [return jsonify({'error': error_msg}), code, headers]. *)
Definition error_response (error_msg : string) (code : Z) : Response :=
  {| body := Jsonify (JObj {[ "error" := JStr error_msg ]});
     status := code;
     resp_headers := headers |}.

(** Lines 134-137. *)
Definition success_response (text : string) : Response :=
  {| body := Jsonify (JObj {[ "success" := JBool true; "text" := JStr text ]});
     status := 200;
     resp_headers := headers |}.

(** Lines 101-105. *)
Definition airtable_data (text : string) : json :=
  JObj {[ "fields" := JObj {[ "Document_AI_Response" := JStr text ]} ]}.

(** Line 108. *)
Definition airtable_url : string :=
  "https://api.airtable.com/v0/" +:+ format_env (AIRTABLE_BASE_ID cfg)
    +:+ "/" +:+ format_env (AIRTABLE_TABLE_NAME cfg).

(** Lines 109-112. *)
Definition airtable_headers : gmap string string :=
  {[ "Authorization" := "Bearer " +:+ format_env (AIRTABLE_API_KEY cfg);
     "Content-Type" := "application/json" ]}.

(** Line 57. *)
Definition processor_name : string :=
  "projects/" +:+ format_env (PROJECT_ID cfg)
    +:+ "/locations/" +:+ format_env (LOCATION cfg)
    +:+ "/processors/" +:+ format_env (PROCESSOR_ID cfg).

(** Lines 60-72. *)
Definition process_request (file_content : list Byte.byte)
  : documentai.ProcessRequest :=
  {| documentai.name := processor_name;
     documentai.raw_document :=
       {| documentai.content := file_content;
          documentai.raw_mime_type := "application/pdf" |} |}.

(** Lines 117-132, the inner [try].  [Some r] is an early [return r];
    [None] falls through to line 134. *)
Definition push_to_airtable (text : string) : M (option Response) :=
  try_except
    (airtable_response ←
       call (requests_post env airtable_url airtable_headers (airtable_data text))
            (EvPost airtable_url airtable_headers (airtable_data text));
     if requests.status_code airtable_response =? 200 then mret None
     else
       mret (Some (error_response
         ("Failed to push to Airtable: Status "
            +:+ str_int (requests.status_code airtable_response)
            +:+ ", Response: " +:+ requests.text airtable_response) 500)))
    is_request_exception
    (fun e =>
       mret (Some (error_response
         ("Error making request to Airtable: " +:+ exc_str e) 500))).

(** Lines 34-137, the body of the outer [try]. *)
Definition try_body (request : Request) : M Response :=
  request_json ← eval (get_json request);
  no_url ←
    (if negb (truthy request_json) then mret true
     else b ← eval (contains "fileUrl" request_json); mret (negb b));
  if no_url : bool then mret (error_response "No file URL provided" 400)
  else
    file_url ← eval (getitem request_json "fileUrl");
    response ← call (requests_get env file_url) (EvGet file_url);
    if negb (requests.status_code response =? 200) then
      mret (error_response
        ("Failed to download file: Status "
           +:+ str_int (requests.status_code response)) 400)
    else
      let file_content := requests.content response in
      match file_content with
      | [] => mret (error_response "Downloaded file is empty" 400)
      | _ =>
          client ← call (DocumentProcessorServiceClient env) EvClient;
          let request' := process_request file_content in
          result ← call (client_process_document env request')
                        (EvProcess request');
          let document := documentai.document result in
          let text := documentai.text document in
          early ← push_to_airtable text;
          match early with
          | Some r => mret r
          | None => mret (success_response text)
          end
      end.

(** Lines 139-142, the handler of the outer [try]. *)
Definition catch_all (e : exn) : M Response :=
  mret (error_response ("Error processing document: " +:+ exc_str e) 500).

(** The handler, run from an empty trace.  [Raise e] is an exception
    that escapes to the caller. *)
Definition process_document (request : Request) : result Response * trace :=
  if String.eqb (method request) "OPTIONS" then
    (Ok {| body := Text ""; status := 204; resp_headers := preflight_headers |},
     [])
  else
    try_except (try_body request) is_exception catch_all [].

End Handler.

(** ** Concrete environments and requests *)

Module Samples.

Definition cfg : Config :=
  {| PROJECT_ID := Some "my-project";
     LOCATION := Some "us";
     PROCESSOR_ID := Some "abc123";
     BUCKET_NAME := None;
     AIRTABLE_API_KEY := Some "keyXYZ";
     AIRTABLE_BASE_ID := Some "appBase";
     AIRTABLE_TABLE_NAME := Some "Documents" |}.

Definition post_request (v : json) : Request :=
  {| method := "POST"; get_json := Ok v |}.

(** The body [{"fileUrl": "https://example.com/doc.pdf"}]. *)
Definition doc_request : Request :=
  post_request (JObj {[ "fileUrl" := JStr "https://example.com/doc.pdf" ]}).

(** A ten-byte stub of a PDF. *)
Definition pdf_stub : list Byte.byte := list_byte_of_string "%PDF-1.4 .".

Definition http (code : Z) (bytes : list Byte.byte) (txt : string)
  : requests.Response :=
  {| requests.status_code := code;
     requests.content := bytes;
     requests.text := txt |}.

Definition hello : documentai.ProcessResponse :=
  {| documentai.document :=
       {| documentai.text := "Hello";
          documentai.mime_type := "application/pdf";
          documentai.pages := 1;
          documentai.entities := [] |} |}.

(** An environment from the outcomes of the fetch, of the
    document-processing call and of the tabular push. *)
Definition world (fetch : result requests.Response)
    (ocr : result documentai.ProcessResponse)
    (push : result requests.Response) : Env :=
  {| requests_get := fun _ => fetch;
     DocumentProcessorServiceClient := Ok tt;
     client_process_document := fun _ => ocr;
     requests_post := fun _ _ _ => push |}.

Definition fetched : result requests.Response := Ok (http 200 pdf_stub "").

Definition all_ok : Env :=
  world fetched (Ok hello) (Ok (http 200 [] "{}")).

Definition fetch_404 : Env :=
  world (Ok (http 404 [] "Not Found")) (Ok hello) (Ok (http 200 [] "{}")).

Definition push_422 : Env :=
  world fetched (Ok hello) (Ok (http 422 [] "INVALID_VALUE_FOR_COLUMN")).

Definition ConnectionError : exn :=
  {| exc_cls := RequestException; exc_str := "Connection refused" |}.

Definition PermissionDenied : exn :=
  {| exc_cls := OtherException; exc_str := "403 Permission denied" |}.

Definition push_down : Env :=
  world fetched (Ok hello) (Raise ConnectionError).

Definition ocr_down : Env :=
  world fetched (Raise PermissionDenied) (Ok (http 200 [] "{}")).

(** What [requests.get] does on the empty string. *)
Definition MissingSchema : exn :=
  {| exc_cls := RequestException;
     exc_str := "Invalid URL '': No scheme supplied. Perhaps you meant https://?" |}.

Definition no_scheme : Env :=
  world (Raise MissingSchema) (Ok hello) (Ok (http 200 [] "{}")).

(** The body [{"fileUrl": ""}]. *)
Definition empty_url_request : Request :=
  post_request (JObj {[ "fileUrl" := JStr "" ]}).

Definition options_request : Request :=
  {| method := "OPTIONS"; get_json := Ok JNull |}.

End Samples.

(** ** Proof automation: one case per path through the handler *)

#[local] Arguments truthy : simpl never.
#[local] Arguments contains : simpl never.
#[local] Arguments getitem : simpl never.
#[local] Arguments str_int : simpl never.
#[local] Arguments is_exception : simpl never.
#[local] Arguments is_request_exception : simpl never.
#[local] Arguments String.eqb : simpl never.
#[local] Arguments Z.eqb : simpl never.
#[local] Arguments airtable_url : simpl never.
#[local] Arguments airtable_headers : simpl never.
#[local] Arguments airtable_data : simpl never.
#[local] Arguments process_request : simpl never.
#[local] Arguments error_response : simpl never.
#[local] Arguments success_response : simpl never.

Ltac unfold_handler :=
  unfold process_document, try_body, push_to_airtable, catch_all,
    try_except, call, eval, mbind, M_bind, mret, M_ret.

(** Case analysis on an innermost scrutinee of the goal. *)
Ltac case_scrutinee :=
  match goal with
  | |- context [match ?x with _ => _ end] =>
      lazymatch x with
      | context [match _ with _ => _ end] => fail
      | _ => destruct x eqn:?
      end
  end.

Ltac handler_paths :=
  unfold_handler; simpl; repeat (case_scrutinee; simpl).

(** Membership of an event in a concrete trace. *)
Ltac trace_inv :=
  repeat match goal with
    | H : False |- _ => destruct H
    | H : _ \/ _ |- _ => destruct H
    | H : _ /\ _ |- _ => destruct H
    | H : @eq event (_ _) (_ _) |- _ => inversion H; subst; clear H
    | H : Ok _ = Ok _ |- _ => injection H as H; subst
    | H : Raise _ = Raise _ |- _ => injection H as H; subst
    | H : Ok _ = Raise _ |- _ => discriminate H
    | H : Raise _ = Ok _ |- _ => discriminate H
    end.

Ltac in_trace := vm_compute; repeat first [left; reflexivity | right].

Lemma eqb_200 (n : Z) : (n =? 200) = true <-> n = 200.
Proof. apply Z.eqb_eq. Qed.

Lemma neqb_200 (n : Z) : (n =? 200) = false <-> n <> 200.
Proof. apply Z.eqb_neq. Qed.

Lemma method_not_options (req : Request) :
  method req <> "OPTIONS" -> String.eqb (method req) "OPTIONS" = false.
Proof. intros H. apply String.eqb_neq. exact H. Qed.

(** ** The preflight path *)

(** C6: a request with method OPTIONS is answered at once with status 204,
    an empty body and the four cross-origin headers, whatever the body,
    the configuration and the outside world; the trace of downstream
    calls is empty. *)
Theorem options_preflight (env : Env) (cfg : Config) (req : Request) :
  method req = "OPTIONS" ->
  process_document env cfg req =
    (Ok {| body := Text "";
           status := 204;
           resp_headers :=
             {[ "Access-Control-Allow-Origin" := "*";
                "Access-Control-Allow-Methods" := "POST";
                "Access-Control-Allow-Headers" := "Content-Type";
                "Access-Control-Max-Age" := "3600" ]} |},
     []).
Proof.
  intros Hm. unfold process_document. rewrite Hm. reflexivity.
Qed.

Lemma options_preflight_witness :
  process_document Samples.push_down Samples.cfg Samples.options_request =
    (Ok {| body := Text "";
           status := 204;
           resp_headers :=
             {[ "Access-Control-Allow-Origin" := "*";
                "Access-Control-Allow-Methods" := "POST";
                "Access-Control-Allow-Headers" := "Content-Type";
                "Access-Control-Max-Age" := "3600" ]} |},
     []).
Proof.
  apply (options_preflight Samples.push_down Samples.cfg Samples.options_request).
  reflexivity.
Defined.

(** ** The main path *)

(** C1: when the run fetched the file with status 200 and non-empty
    content, the document-processing call returned a result with text
    [t], and the tabular push returned status 200, the handler answers
    200 with the body [{success: true, text: t}]. *)
Theorem success_response_exact (env : Env) (cfg : Config) (req : Request)
    (url : json) (fetched : requests.Response)
    (preq : documentai.ProcessRequest) (processed : documentai.ProcessResponse)
    (aurl : string) (ahdrs : gmap string string) (adata : json)
    (pushed : requests.Response) :
  In (EvGet url (Ok fetched)) (snd (process_document env cfg req)) ->
  requests.status_code fetched = 200 ->
  requests.content fetched <> [] ->
  In (EvProcess preq (Ok processed)) (snd (process_document env cfg req)) ->
  In (EvPost aurl ahdrs adata (Ok pushed)) (snd (process_document env cfg req)) ->
  requests.status_code pushed = 200 ->
  exists r : Response,
    fst (process_document env cfg req) = Ok r /\
    status r = 200 /\
    body r =
      Jsonify (JObj {[ "success" := JBool true;
                       "text" := JStr (documentai.text (documentai.document processed)) ]}).
Proof.
  handler_paths; intros; trace_inv;
    try match goal with
      | H : (_ =? 200) = false |- _ => apply neqb_200 in H; contradiction
      end.
  eexists; split; [reflexivity | split; reflexivity].
Qed.

Lemma success_response_exact_witness :
  exists r : Response,
    fst (process_document Samples.all_ok Samples.cfg Samples.doc_request) = Ok r /\
    status r = 200 /\
    body r = Jsonify (JObj {[ "success" := JBool true; "text" := JStr "Hello" ]}).
Proof.
  apply (success_response_exact Samples.all_ok Samples.cfg Samples.doc_request
           (JStr "https://example.com/doc.pdf") (Samples.http 200 Samples.pdf_stub "")
           (process_request Samples.cfg Samples.pdf_stub) Samples.hello
           (airtable_url Samples.cfg) (airtable_headers Samples.cfg)
           (airtable_data "Hello") (Samples.http 200 [] "{}")).
  - in_trace.
  - reflexivity.
  - discriminate.
  - in_trace.
  - in_trace.
  - reflexivity.
Defined.

(** ** Failures of the fetch *)

(** C3: when the fetch returned a status other than 200, or status 200
    with empty content, the handler answers 400 with an [error] field
    that describes the fetch failure, and the fetch is the only call of
    the run: neither the Document AI client nor the tabular service is
    reached. *)
Theorem fetch_failure_400 (env : Env) (cfg : Config) (req : Request)
    (url : json) (fetched : requests.Response) :
  In (EvGet url (Ok fetched)) (snd (process_document env cfg req)) ->
  requests.status_code fetched <> 200 \/ requests.content fetched = [] ->
  process_document env cfg req =
    (Ok {| body :=
             Jsonify (JObj {[ "error" := JStr
               (if requests.status_code fetched =? 200
                then "Downloaded file is empty"
                else "Failed to download file: Status "
                       +:+ str_int (requests.status_code fetched)) ]});
           status := 400;
           resp_headers := {[ "Access-Control-Allow-Origin" := "*" ]} |},
     [EvGet url (Ok fetched)]).
Proof.
  handler_paths; intros; trace_inv;
    rewrite ?negb_true_iff, ?negb_false_iff in *;
    try reflexivity; try congruence.
  all: match goal with
       | H : (_ =? 200) = true |- _ => apply eqb_200 in H
       end; congruence.
Qed.

Lemma fetch_failure_400_witness :
  process_document Samples.fetch_404 Samples.cfg Samples.doc_request =
    (Ok {| body :=
             Jsonify (JObj {[ "error" := JStr "Failed to download file: Status 404" ]});
           status := 400;
           resp_headers := {[ "Access-Control-Allow-Origin" := "*" ]} |},
     [EvGet (JStr "https://example.com/doc.pdf")
            (Ok (Samples.http 404 [] "Not Found"))]).
Proof.
  apply (fetch_failure_400 Samples.fetch_404 Samples.cfg Samples.doc_request
           (JStr "https://example.com/doc.pdf") (Samples.http 404 [] "Not Found")).
  - in_trace.
  - left. discriminate.
Defined.

(** ** The tabular push *)

(** C8: whenever the document-processing call returned a result with text
    [t], the run makes a POST to
    [https://api.airtable.com/v0/<base>/<table>] with the header
    [Authorization: Bearer <key>] and the JSON body
    [{"fields": {"Document_AI_Response": t}}], and that is the only POST
    of the run. *)
Theorem airtable_push_payload (env : Env) (cfg : Config) (req : Request)
    (preq : documentai.ProcessRequest) (processed : documentai.ProcessResponse) :
  In (EvProcess preq (Ok processed)) (snd (process_document env cfg req)) ->
  let url :=
    "https://api.airtable.com/v0/" +:+ format_env (AIRTABLE_BASE_ID cfg)
      +:+ "/" +:+ format_env (AIRTABLE_TABLE_NAME cfg) in
  let hdrs : gmap string string :=
    {[ "Authorization" := "Bearer " +:+ format_env (AIRTABLE_API_KEY cfg);
       "Content-Type" := "application/json" ]} in
  let data :=
    JObj {[ "fields" :=
      JObj {[ "Document_AI_Response" :=
        JStr (documentai.text (documentai.document processed)) ]} ]} in
  In (EvPost url hdrs data (requests_post env url hdrs data))
     (snd (process_document env cfg req)) /\
  forall url' hdrs' data' out,
    In (EvPost url' hdrs' data' out) (snd (process_document env cfg req)) ->
    url' = url /\ hdrs' = hdrs /\ data' = data.
Proof.
  handler_paths; intros; trace_inv.
  all: split;
    [ unfold airtable_url, airtable_headers, airtable_data in *;
      repeat match goal with H : _ = _ |- _ => rewrite H end;
      simpl; tauto
    | intros; trace_inv; repeat split; reflexivity ].
Qed.

Lemma airtable_push_payload_witness :
  In (EvPost "https://api.airtable.com/v0/appBase/Documents"
        {[ "Authorization" := "Bearer keyXYZ";
           "Content-Type" := "application/json" ]}
        (JObj {[ "fields" := JObj {[ "Document_AI_Response" := JStr "Hello" ]} ]})
        (Ok (Samples.http 200 [] "{}")))
     (snd (process_document Samples.all_ok Samples.cfg Samples.doc_request)).
Proof.
  apply (airtable_push_payload Samples.all_ok Samples.cfg Samples.doc_request
           (process_request Samples.cfg Samples.pdf_stub) Samples.hello).
  in_trace.
Defined.

(** C4: when the fetch and the document-processing call succeeded and the
    tabular push returned a status other than 200, the handler answers
    500 and the [error] field names the Airtable failure with the status
    and the text of the reply. *)
Theorem airtable_rejection_500 (env : Env) (cfg : Config) (req : Request)
    (url : json) (fetched : requests.Response)
    (preq : documentai.ProcessRequest) (processed : documentai.ProcessResponse)
    (aurl : string) (ahdrs : gmap string string) (adata : json)
    (pushed : requests.Response) :
  In (EvGet url (Ok fetched)) (snd (process_document env cfg req)) ->
  In (EvProcess preq (Ok processed)) (snd (process_document env cfg req)) ->
  In (EvPost aurl ahdrs adata (Ok pushed)) (snd (process_document env cfg req)) ->
  requests.status_code pushed <> 200 ->
  fst (process_document env cfg req) =
    Ok {| body :=
            Jsonify (JObj {[ "error" := JStr
              ("Failed to push to Airtable: Status "
                 +:+ str_int (requests.status_code pushed)
                 +:+ ", Response: " +:+ requests.text pushed) ]});
          status := 500;
          resp_headers := {[ "Access-Control-Allow-Origin" := "*" ]} |}.
Proof.
  handler_paths; intros; trace_inv; try reflexivity.
  match goal with
  | H : (_ =? 200) = true |- _ => apply eqb_200 in H; contradiction
  end.
Qed.

Lemma airtable_rejection_500_witness :
  fst (process_document Samples.push_422 Samples.cfg Samples.doc_request) =
    Ok {| body :=
            Jsonify (JObj {[ "error" := JStr
              "Failed to push to Airtable: Status 422, Response: INVALID_VALUE_FOR_COLUMN" ]});
          status := 500;
          resp_headers := {[ "Access-Control-Allow-Origin" := "*" ]} |}.
Proof.
  apply (airtable_rejection_500 Samples.push_422 Samples.cfg Samples.doc_request
           (JStr "https://example.com/doc.pdf") (Samples.http 200 Samples.pdf_stub "")
           (process_request Samples.cfg Samples.pdf_stub) Samples.hello
           (airtable_url Samples.cfg) (airtable_headers Samples.cfg)
           (airtable_data "Hello") (Samples.http 422 [] "INVALID_VALUE_FOR_COLUMN")).
  - in_trace.
  - in_trace.
  - in_trace.
  - discriminate.
Defined.

(** ** The two [except] clauses *)

(** C5: a [RequestException] raised by the tabular push is caught by the
    inner [except]: the body of the outer [try] returns normally, with a
    500 error object.  An exception raised by the document-processing
    call is not caught there: it leaves the body of the outer [try], and
    the catch-all answers 500 with the exception's message. *)
Theorem catch_asymmetry (env : Env) (cfg : Config) (req : Request) :
  (forall aurl ahdrs adata e,
      In (EvPost aurl ahdrs adata (Raise e)) (snd (process_document env cfg req)) ->
      is_request_exception e = true ->
      let r :=
        {| body := Jsonify (JObj {[ "error" := JStr
                     ("Error making request to Airtable: " +:+ exc_str e) ]});
           status := 500;
           resp_headers := {[ "Access-Control-Allow-Origin" := "*" ]} |} in
      fst (try_body env cfg req []) = Ok r /\
      fst (process_document env cfg req) = Ok r)
  /\
  (forall preq e,
      In (EvProcess preq (Raise e)) (snd (process_document env cfg req)) ->
      is_exception e = true ->
      fst (try_body env cfg req []) = Raise e /\
      fst (process_document env cfg req) =
        Ok {| body := Jsonify (JObj {[ "error" := JStr
                        ("Error processing document: " +:+ exc_str e) ]});
              status := 500;
              resp_headers := {[ "Access-Control-Allow-Origin" := "*" ]} |}).
Proof.
  split.
  - handler_paths; intros; trace_inv; try (split; reflexivity); congruence.
  - handler_paths; intros; trace_inv; try (split; reflexivity); congruence.
Qed.

Lemma catch_asymmetry_witness :
  (fst (try_body Samples.push_down Samples.cfg Samples.doc_request []) =
     Ok {| body := Jsonify (JObj {[ "error" := JStr
                     "Error making request to Airtable: Connection refused" ]});
           status := 500;
           resp_headers := {[ "Access-Control-Allow-Origin" := "*" ]} |})
  /\
  (fst (try_body Samples.ocr_down Samples.cfg Samples.doc_request []) =
     Raise Samples.PermissionDenied /\
   fst (process_document Samples.ocr_down Samples.cfg Samples.doc_request) =
     Ok {| body := Jsonify (JObj {[ "error" := JStr
                     "Error processing document: 403 Permission denied" ]});
           status := 500;
           resp_headers := {[ "Access-Control-Allow-Origin" := "*" ]} |}).
Proof.
  split.
  - apply (proj1 (catch_asymmetry Samples.push_down Samples.cfg Samples.doc_request)
             (airtable_url Samples.cfg) (airtable_headers Samples.cfg)
             (airtable_data "Hello") Samples.ConnectionError).
    + in_trace.
    + reflexivity.
  - apply (proj2 (catch_asymmetry Samples.ocr_down Samples.cfg Samples.doc_request)
             (process_request Samples.cfg Samples.pdf_stub) Samples.PermissionDenied).
    + in_trace.
    + reflexivity.
Defined.

(** ** Properties of every run *)

(** C7: every response the handler returns, whatever the request and the
    outcomes of the external calls, carries
    [Access-Control-Allow-Origin: *]. *)
Theorem cors_header_always (env : Env) (cfg : Config) (req : Request)
    (r : Response) :
  fst (process_document env cfg req) = Ok r ->
  resp_headers r !! "Access-Control-Allow-Origin" = Some "*".
Proof.
  handler_paths; intros; trace_inv; reflexivity.
Qed.

Lemma cors_header_always_witness :
  resp_headers (error_response "Error making request to Airtable: Connection refused" 500)
    !! "Access-Control-Allow-Origin" = Some "*".
Proof.
  apply (cors_header_always Samples.push_down Samples.cfg Samples.doc_request).
  reflexivity.
Defined.

(** C9: the method is only compared with OPTIONS.  A request with any
    other method runs exactly as the same request sent with POST: same
    result, same downstream calls. *)
Theorem method_only_checked_for_options (env : Env) (cfg : Config)
    (req : Request) :
  method req <> "OPTIONS" ->
  process_document env cfg req =
    process_document env cfg {| method := "POST"; get_json := get_json req |}.
Proof.
  intros Hm. unfold process_document.
  rewrite (method_not_options req Hm). reflexivity.
Qed.

Lemma method_only_checked_for_options_witness :
  process_document Samples.all_ok Samples.cfg
    {| method := "DELETE"; get_json := get_json Samples.doc_request |} =
  process_document Samples.all_ok Samples.cfg Samples.doc_request.
Proof.
  apply (method_only_checked_for_options Samples.all_ok Samples.cfg
           {| method := "DELETE"; get_json := get_json Samples.doc_request |}).
  discriminate.
Defined.

(** ** Totality *)

(** The built-in operations raise [TypeError] or [KeyError] only. *)
Lemma contains_raises_Exception (k : string) (v : json) (e : exn) :
  contains k v = Raise e -> is_exception e = true.
Proof. unfold contains. destruct v; intros [= <-]; reflexivity. Qed.

Lemma getitem_raises_Exception (v : json) (k : string) (e : exn) :
  getitem v k = Raise e -> is_exception e = true.
Proof.
  unfold getitem. destruct v; try (intros [= <-]; reflexivity).
  destruct (m !! k); intros [= <-]; reflexivity.
Qed.

(** The exceptions a call may raise all derive from [Exception]. *)
Definition raises_within_Exception {A : Type} (r : result A) : Prop :=
  forall e, r = Raise e -> is_exception e = true.

(** No call of the run can raise anything outside the [Exception]
    hierarchy. *)
Record Exception_only (env : Env) (req : Request) : Prop := {
  exc_get_json : raises_within_Exception (get_json req);
  exc_get : forall url, raises_within_Exception (requests_get env url);
  exc_client : raises_within_Exception (DocumentProcessorServiceClient env);
  exc_process :
    forall preq, raises_within_Exception (client_process_document env preq);
  exc_post :
    forall url hdrs data, raises_within_Exception (requests_post env url hdrs data)
}.

(** C10, as stated: every run returns a response whose body is JSON and
    whose status is 200, 204, 400 or 500. *)
Definition always_json_response : Prop :=
  forall env cfg req,
    Exception_only env req ->
    exists r : Response,
      fst (process_document env cfg req) = Ok r /\
      (exists j, body r = Jsonify j) /\
      (status r = 200 \/ status r = 204 \/ status r = 400 \/ status r = 500).

Lemma samples_all_ok_Exception_only (req : Request) :
  raises_within_Exception (get_json req) ->
  Exception_only Samples.all_ok req.
Proof.
  intros Hj. split; try exact Hj; repeat intro; discriminate.
Qed.

(** C10, counterexample: the answer to an OPTIONS request is the tuple
    [('', 204, headers)].  Its body is the empty string, which [jsonify]
    never produced, so not every response is a JSON response. *)
Lemma preflight_body_not_json :
  Exception_only Samples.all_ok Samples.options_request /\
  fst (process_document Samples.all_ok Samples.cfg Samples.options_request) =
    Ok {| body := Text ""; status := 204; resp_headers := preflight_headers |} /\
  ~ always_json_response.
Proof.
  assert (He : Exception_only Samples.all_ok Samples.options_request).
  { apply samples_all_ok_Exception_only. intros e H. discriminate H. }
  split; [exact He | split; [reflexivity |]].
  intros Hclaim.
  destruct (Hclaim Samples.all_ok Samples.cfg Samples.options_request He)
    as (r & Hr & (j & Hj) & _).
  injection Hr as <-. discriminate Hj.
Qed.

(** C10, amended: when the calls raise nothing outside the [Exception]
    hierarchy, no exception escapes the handler.  It returns one
    response: the empty-bodied 204 of the preflight, or a JSON object
    with status 200, 400 or 500. *)
Theorem handler_total (env : Env) (cfg : Config) (req : Request) :
  Exception_only env req ->
  exists r : Response,
    fst (process_document env cfg req) = Ok r /\
    ((status r = 204 /\ body r = Text "") \/
     ((status r = 200 \/ status r = 400 \/ status r = 500) /\
      exists m, body r = Jsonify (JObj m))).
Proof.
  intros [Hj Hg Hc Hp Ha].
  pose proof (contains_raises_Exception "fileUrl") as Hin.
  pose proof (fun v => getitem_raises_Exception v "fileUrl") as Hget.
  revert Hj Hg Hc Hp Ha Hin Hget. unfold raises_within_Exception.
  handler_paths; intros.
  all: try (eexists; split; [reflexivity |]; simpl; eauto 8; fail).
  all: exfalso.
  all: match goal with
       | H : is_exception ?e = false |- _ =>
           assert (is_exception e = true) by eauto; congruence
       end.
Qed.

Lemma handler_total_witness :
  exists r : Response,
    fst (process_document Samples.all_ok Samples.cfg Samples.doc_request) = Ok r /\
    ((status r = 204 /\ body r = Text "") \/
     ((status r = 200 \/ status r = 400 \/ status r = 500) /\
      exists m, body r = Jsonify (JObj m))).
Proof.
  apply (handler_total Samples.all_ok Samples.cfg Samples.doc_request).
  split; repeat intro; discriminate.
Defined.

(** ** Validation of the input *)

(** Supporting fact: when [request.get_json()] itself raises, the
    exception is absorbed by the catch-all, which answers 500; no
    downstream call is made. *)
Lemma get_json_raises_500 (env : Env) (cfg : Config) (req : Request) (e : exn) :
  method req <> "OPTIONS" ->
  get_json req = Raise e ->
  is_exception e = true ->
  process_document env cfg req =
    (Ok {| body := Jsonify (JObj {[ "error" := JStr
                     ("Error processing document: " +:+ exc_str e) ]});
           status := 500;
           resp_headers := {[ "Access-Control-Allow-Origin" := "*" ]} |},
     []).
Proof.
  intros Hm Hj He. unfold process_document.
  rewrite (method_not_options req Hm).
  unfold_handler. rewrite Hj, He. reflexivity.
Qed.

(** The inputs C2 speaks of: [get_json()] raises on a body that does not
    parse; or the decoded object has no [fileUrl] key; or its [fileUrl]
    is the empty string. *)
Definition invalid_input (req : Request) : Prop :=
  (exists e, get_json req = Raise e) \/
  (exists m, get_json req = Ok (JObj m) /\ m !! "fileUrl" = None) \/
  (exists m, get_json req = Ok (JObj m) /\ m !! "fileUrl" = Some (JStr "")).

(** C2, as stated: every such request, OPTIONS apart, is answered 400
    with an [error] field and without any downstream call. *)
Definition invalid_input_rejected : Prop :=
  forall env cfg req,
    method req <> "OPTIONS" ->
    invalid_input req ->
    exists msg : string,
      process_document env cfg req =
        (Ok {| body := Jsonify (JObj {[ "error" := JStr msg ]});
               status := 400;
               resp_headers := {[ "Access-Control-Allow-Origin" := "*" ]} |},
         []).

(** C2, counterexample: the body [{"fileUrl": ""}] passes the validation
    of line 36, which tests the presence of the key and not its value.
    The empty string is handed to [requests.get]; with the exception that
    [requests] raises on it the answer is 500, not 400, and the trace is
    not empty. *)
Lemma empty_file_url_not_rejected :
  method Samples.empty_url_request <> "OPTIONS" /\
  get_json Samples.empty_url_request = Ok (JObj {[ "fileUrl" := JStr "" ]}) /\
  process_document Samples.no_scheme Samples.cfg Samples.empty_url_request =
    (Ok {| body := Jsonify (JObj {[ "error" := JStr
             "Error processing document: Invalid URL '': No scheme supplied. Perhaps you meant https://?" ]});
           status := 500;
           resp_headers := {[ "Access-Control-Allow-Origin" := "*" ]} |},
     [EvGet (JStr "") (Raise Samples.MissingSchema)]) /\
  ~ invalid_input_rejected.
Proof.
  split; [discriminate |].
  split; [reflexivity |].
  split; [vm_compute; reflexivity |].
  intros Hclaim.
  destruct (Hclaim Samples.no_scheme Samples.cfg Samples.empty_url_request)
    as [msg Hmsg].
  - discriminate.
  - right. right. exists {[ "fileUrl" := JStr "" ]}. split; reflexivity.
  - apply (f_equal snd) in Hmsg. vm_compute in Hmsg. discriminate Hmsg.
Qed.

(** C2, amended: for a request other than OPTIONS whose [get_json()]
    returns a false value ([None], an empty object, ...) or a value that
    does not contain the key [fileUrl], the handler answers 400 with the
    body [{error: 'No file URL provided'}] and makes no downstream
    call. *)
Theorem missing_file_url_400 (env : Env) (cfg : Config) (req : Request)
    (request_json : json) :
  method req <> "OPTIONS" ->
  get_json req = Ok request_json ->
  truthy request_json = false \/ contains "fileUrl" request_json = Ok false ->
  process_document env cfg req =
    (Ok {| body := Jsonify (JObj {[ "error" := JStr "No file URL provided" ]});
           status := 400;
           resp_headers := {[ "Access-Control-Allow-Origin" := "*" ]} |},
     []).
Proof.
  intros Hm Hj Hv. unfold process_document.
  rewrite (method_not_options req Hm).
  unfold_handler. rewrite Hj.
  destruct (truthy request_json) eqn:Ht; simpl; [| reflexivity].
  destruct Hv as [Hv | Hv]; [discriminate Hv |].
  rewrite Hv. reflexivity.
Qed.

Lemma missing_file_url_400_witness :
  process_document Samples.all_ok Samples.cfg
    (Samples.post_request (JObj {[ "url" := JStr "https://example.com/doc.pdf" ]})) =
    (Ok {| body := Jsonify (JObj {[ "error" := JStr "No file URL provided" ]});
           status := 400;
           resp_headers := {[ "Access-Control-Allow-Origin" := "*" ]} |},
     []).
Proof.
  apply (missing_file_url_400 Samples.all_ok Samples.cfg
           (Samples.post_request (JObj {[ "url" := JStr "https://example.com/doc.pdf" ]}))
           (JObj {[ "url" := JStr "https://example.com/doc.pdf" ]})).
  - discriminate.
  - reflexivity.
  - right. vm_compute. reflexivity.
Defined.

(** * Further properties of the handler *)

(** ** The shape of a run *)

(** The four kinds of downstream call. *)
Inductive call_kind := KGet | KClient | KProcess | KPost.

Definition event_kind (ev : event) : call_kind :=
  match ev with
  | EvGet _ _ => KGet
  | EvClient _ => KClient
  | EvProcess _ _ => KProcess
  | EvPost _ _ _ _ => KPost
  end.

(** The order in which the source makes its calls (lines 43, 56, 74, 118). *)
Definition call_order : list call_kind := [KGet; KClient; KProcess; KPost].

(** The exception with which a call ended, if it raised. *)
Definition event_raised (ev : event) : option exn :=
  match ev with
  | EvGet _ (Raise e) | EvClient (Raise e) | EvProcess _ (Raise e)
  | EvPost _ _ _ (Raise e) => Some e
  | _ => None
  end.

(** A call after which the handler goes on to the next one: a fetch with
    status 200 and content, a client that was built, a processing call
    that returned.  Nothing follows the push. *)
Definition event_passed (ev : event) : Prop :=
  match ev with
  | EvGet _ (Ok response) =>
      requests.status_code response = 200 /\ requests.content response <> []
  | EvClient (Ok _) => True
  | EvProcess _ (Ok _) => True
  | _ => False
  end.

Lemma request_exception_is_exception (e : exn) :
  is_request_exception e = true -> is_exception e = true.
Proof.
  unfold is_request_exception, is_exception.
  destruct (exc_cls e); intros H; first [reflexivity | discriminate H].
Qed.

(** The calls of a run are an initial segment of: fetch, client,
    processing, push.  No call is made twice, none out of order. *)
Theorem calls_in_source_order (env : Env) (cfg : Config) (req : Request) :
  exists n : nat,
    map event_kind (snd (process_document env cfg req)) = firstn n call_order.
Proof.
  handler_paths;
    first [ exists 0%nat; reflexivity | exists 1%nat; reflexivity
          | exists 2%nat; reflexivity | exists 3%nat; reflexivity
          | exists 4%nat; reflexivity ].
Qed.

(** First failure wins: every call but the last of a run passed. *)
Theorem only_last_call_fails (env : Env) (cfg : Config) (req : Request) :
  Forall event_passed (removelast (snd (process_document env cfg req))).
Proof.
  handler_paths; repeat constructor;
    rewrite ?negb_true_iff, ?negb_false_iff in *;
    try (apply eqb_200; assumption); congruence.
Qed.

(** ** What a status tells the caller *)

(** A 200 is never a partial success: the run made all four calls, the
    fetch returned 200 with content, the push returned 200, and the text
    of the body is the text that was pushed. *)
Theorem status_200_means_pushed (env : Env) (cfg : Config) (req : Request)
    (r : Response) :
  fst (process_document env cfg req) = Ok r ->
  status r = 200 ->
  exists url fetched processed pushed,
    snd (process_document env cfg req) =
      [ EvGet url (Ok fetched);
        EvClient (Ok tt);
        EvProcess (process_request cfg (requests.content fetched)) (Ok processed);
        EvPost (airtable_url cfg) (airtable_headers cfg)
          (airtable_data (documentai.text (documentai.document processed)))
          (Ok pushed) ] /\
    requests.status_code fetched = 200 /\
    requests.content fetched <> [] /\
    requests.status_code pushed = 200 /\
    body r =
      Jsonify (JObj {[ "success" := JBool true;
                       "text" := JStr (documentai.text (documentai.document processed)) ]}).
Proof.
  handler_paths; intros; trace_inv;
    unfold error_response, success_response in *; simpl in *;
    try discriminate.
  rewrite ?negb_true_iff, ?negb_false_iff in *.
  repeat match goal with
    | H : (_ =? 200) = true |- _ => apply eqb_200 in H
    | u : unit |- _ => destruct u
    end.
  do 4 eexists. split.
  - match goal with H : requests.content _ = _ :: _ |- _ => rewrite H end.
    reflexivity.
  - repeat split; try assumption; congruence.
Qed.

Lemma status_200_means_pushed_witness :
  exists url fetched processed pushed,
    snd (process_document Samples.all_ok Samples.cfg Samples.doc_request) =
      [ EvGet url (Ok fetched);
        EvClient (Ok tt);
        EvProcess (process_request Samples.cfg (requests.content fetched)) (Ok processed);
        EvPost (airtable_url Samples.cfg) (airtable_headers Samples.cfg)
          (airtable_data (documentai.text (documentai.document processed)))
          (Ok pushed) ] /\
    requests.status_code fetched = 200 /\
    requests.content fetched <> [] /\
    requests.status_code pushed = 200 /\
    body (success_response "Hello") =
      Jsonify (JObj {[ "success" := JBool true;
                       "text" := JStr (documentai.text (documentai.document processed)) ]}).
Proof.
  apply (status_200_means_pushed Samples.all_ok Samples.cfg Samples.doc_request
           (success_response "Hello")).
  - vm_compute. reflexivity.
  - reflexivity.
Defined.

(** A 400 means that Document AI and Airtable were never reached: the run
    made no call at all, or only a fetch that returned. *)
Theorem status_400_means_nothing_processed (env : Env) (cfg : Config)
    (req : Request) (r : Response) :
  fst (process_document env cfg req) = Ok r ->
  status r = 400 ->
  snd (process_document env cfg req) = [] \/
  exists url fetched,
    snd (process_document env cfg req) = [EvGet url (Ok fetched)] /\
    (requests.status_code fetched <> 200 \/ requests.content fetched = []).
Proof.
  handler_paths; intros; trace_inv;
    unfold error_response, success_response in *; simpl in *;
    try discriminate; try (left; reflexivity).
  all: right; do 2 eexists; split; [reflexivity |].
  all: rewrite ?negb_true_iff, ?negb_false_iff in *.
  - left. apply neqb_200. assumption.
  - right. assumption.
Qed.

Lemma status_400_means_nothing_processed_witness :
  snd (process_document Samples.fetch_404 Samples.cfg Samples.doc_request) = [] \/
  exists url fetched,
    snd (process_document Samples.fetch_404 Samples.cfg Samples.doc_request) =
      [EvGet url (Ok fetched)] /\
    (requests.status_code fetched <> 200 \/ requests.content fetched = []).
Proof.
  apply (status_400_means_nothing_processed Samples.fetch_404 Samples.cfg
           Samples.doc_request
           (error_response "Failed to download file: Status 404" 400)).
  - vm_compute. reflexivity.
  - reflexivity.
Defined.



(** ** Exceptions *)

(** The catch-all is [except Exception]: an exception outside that
    hierarchy ([KeyboardInterrupt], [SystemExit]), raised by
    [get_json()] or by any downstream call, is not turned into a
    response.  It escapes to the caller of the handler. *)
Theorem base_exception_escapes (env : Env) (cfg : Config) (req : Request)
    (e : exn) :
  is_exception e = false ->
  (method req <> "OPTIONS" /\ get_json req = Raise e) \/
  (exists ev, In ev (snd (process_document env cfg req)) /\
              event_raised ev = Some e) ->
  fst (process_document env cfg req) = Raise e.
Proof.
  intros He [[Hm Hj] | (ev & Hin & Hev)].
  - unfold process_document. rewrite (method_not_options req Hm).
    unfold_handler. rewrite Hj, He. reflexivity.
  - revert Hin He. handler_paths; intros; trace_inv; subst; simpl in *;
      try discriminate;
      repeat match goal with
        | H : Some _ = Some _ |- _ => injection H as H; subst
        | H : is_request_exception _ = true |- _ =>
            apply request_exception_is_exception in H
        end;
      congruence.
Qed.

Definition KeyboardInterrupt : exn :=
  {| exc_cls := BaseExceptionOnly; exc_str := "" |}.

Lemma base_exception_escapes_witness :
  fst (process_document
         (Samples.world Samples.fetched (Raise KeyboardInterrupt)
            (Ok (Samples.http 200 [] "{}")))
         Samples.cfg Samples.doc_request) = Raise KeyboardInterrupt.
Proof.
  apply (base_exception_escapes
           (Samples.world Samples.fetched (Raise KeyboardInterrupt)
              (Ok (Samples.http 200 [] "{}")))
           Samples.cfg Samples.doc_request KeyboardInterrupt).
  - reflexivity.
  - right.
    exists (EvProcess (process_request Samples.cfg Samples.pdf_stub)
              (Raise KeyboardInterrupt)).
    split; [in_trace | reflexivity].
Defined.

(** An exception of the [Exception] hierarchy raised by the fetch, by the
    construction of the Document AI client or by the processing call ends
    the run there: that call is the last of the trace and the answer is
    the catch-all's 500 with [str(e)]. *)
Theorem downstream_exception_500 (env : Env) (cfg : Config) (req : Request)
    (ev : event) (e : exn) :
  In ev (snd (process_document env cfg req)) ->
  event_kind ev <> KPost ->
  event_raised ev = Some e ->
  is_exception e = true ->
  fst (process_document env cfg req) =
    Ok {| body := Jsonify (JObj {[ "error" := JStr
                    ("Error processing document: " +:+ exc_str e) ]});
          status := 500;
          resp_headers := {[ "Access-Control-Allow-Origin" := "*" ]} |} /\
  last (snd (process_document env cfg req)) = Some ev /\
  ~ exists aurl ahdrs adata out,
      In (EvPost aurl ahdrs adata out) (snd (process_document env cfg req)).
Proof.
  handler_paths; intros; trace_inv; subst; simpl in *;
    try discriminate; try congruence;
    repeat match goal with
      | H : Some _ = Some _ |- _ => injection H as H; subst
      end;
    try congruence.
  all: split; [reflexivity | split; [reflexivity |]].
  all: intros (aurl & ahdrs & adata & out & Hin); simpl in Hin; trace_inv.
Qed.

Definition ReadTimeout : exn :=
  {| exc_cls := RequestException; exc_str := "Read timed out." |}.

Lemma downstream_exception_500_witness :
  fst (process_document
         (Samples.world (Raise ReadTimeout) (Ok Samples.hello)
            (Ok (Samples.http 200 [] "{}")))
         Samples.cfg Samples.doc_request) =
    Ok {| body := Jsonify (JObj {[ "error" := JStr
                    "Error processing document: Read timed out." ]});
          status := 500;
          resp_headers := {[ "Access-Control-Allow-Origin" := "*" ]} |}.
Proof.
  apply (downstream_exception_500
           (Samples.world (Raise ReadTimeout) (Ok Samples.hello)
              (Ok (Samples.http 200 [] "{}")))
           Samples.cfg Samples.doc_request
           (EvGet (JStr "https://example.com/doc.pdf") (Raise ReadTimeout)) ReadTimeout).
  - in_trace.
  - discriminate.
  - reflexivity.
  - reflexivity.
Defined.

(** The inner [except] names [RequestException] only.  Any other
    exception of the [Exception] hierarchy raised by the push gets the
    catch-all's message, not the Airtable one. *)
Theorem push_other_exception_catch_all (env : Env) (cfg : Config)
    (req : Request) (aurl : string) (ahdrs : gmap string string)
    (adata : json) (e : exn) :
  In (EvPost aurl ahdrs adata (Raise e)) (snd (process_document env cfg req)) ->
  is_request_exception e = false ->
  is_exception e = true ->
  fst (try_body env cfg req []) = Raise e /\
  fst (process_document env cfg req) =
    Ok {| body := Jsonify (JObj {[ "error" := JStr
                    ("Error processing document: " +:+ exc_str e) ]});
          status := 500;
          resp_headers := {[ "Access-Control-Allow-Origin" := "*" ]} |}.
Proof.
  handler_paths; intros; trace_inv; try (split; reflexivity); congruence.
Qed.

Definition EncodeError : exn :=
  {| exc_cls := OtherException;
     exc_str := "'utf-8' codec can't encode character" |}.

Lemma push_other_exception_catch_all_witness :
  fst (process_document
         (Samples.world Samples.fetched (Ok Samples.hello) (Raise EncodeError))
         Samples.cfg Samples.doc_request) =
    Ok {| body := Jsonify (JObj {[ "error" := JStr
                    "Error processing document: 'utf-8' codec can't encode character" ]});
          status := 500;
          resp_headers := {[ "Access-Control-Allow-Origin" := "*" ]} |}.
Proof.
  apply (push_other_exception_catch_all
           (Samples.world Samples.fetched (Ok Samples.hello) (Raise EncodeError))
           Samples.cfg Samples.doc_request
           (airtable_url Samples.cfg) (airtable_headers Samples.cfg)
           (airtable_data "Hello") EncodeError).
  - in_trace.
  - reflexivity.
  - reflexivity.
Defined.

(** ** What is sent downstream *)




(** The processing request is built from the configuration and from the
    fetched bytes alone: the processor name of line 57, the content of
    the download unchanged, and the fixed MIME type [application/pdf]. *)
Theorem document_ai_request (env : Env) (cfg : Config) (req : Request)
    (url : json) (fetched : requests.Response)
    (preq : documentai.ProcessRequest)
    (out : result documentai.ProcessResponse) :
  In (EvGet url (Ok fetched)) (snd (process_document env cfg req)) ->
  In (EvProcess preq out) (snd (process_document env cfg req)) ->
  preq =
    {| documentai.name :=
         "projects/" +:+ format_env (PROJECT_ID cfg)
           +:+ "/locations/" +:+ format_env (LOCATION cfg)
           +:+ "/processors/" +:+ format_env (PROCESSOR_ID cfg);
       documentai.raw_document :=
         {| documentai.content := requests.content fetched;
            documentai.raw_mime_type := "application/pdf" |} |}.
Proof.
  handler_paths; intros; trace_inv;
    unfold process_request, processor_name;
    match goal with H : requests.content _ = _ :: _ |- _ => rewrite H end;
    reflexivity.
Qed.

Lemma document_ai_request_witness :
  process_request Samples.cfg Samples.pdf_stub =
    {| documentai.name := "projects/my-project/locations/us/processors/abc123";
       documentai.raw_document :=
         {| documentai.content := Samples.pdf_stub;
            documentai.raw_mime_type := "application/pdf" |} |}.
Proof.
  apply (document_ai_request Samples.all_ok Samples.cfg Samples.doc_request
           (JStr "https://example.com/doc.pdf") (Samples.http 200 Samples.pdf_stub "")
           (process_request Samples.cfg Samples.pdf_stub) (Ok Samples.hello)).
  - in_trace.
  - in_trace.
Defined.

(** ** Bodies that are JSON but not objects *)

(** A decoded body that is not an object never reaches the fetch.  It is
    answered 400 when it is false or does not contain [fileUrl]; a
    number or [true] (no membership test), and a list or a string that
    does contain [fileUrl] (no indexing by a string), raise [TypeError]
    and get the catch-all's 500. *)
Theorem non_object_body_never_fetched (env : Env) (cfg : Config)
    (req : Request) (v : json) :
  method req <> "OPTIONS" ->
  get_json req = Ok v ->
  (forall m, v <> JObj m) ->
  exists (msg : string) (code : Z),
    process_document env cfg req =
      (Ok {| body := Jsonify (JObj {[ "error" := JStr msg ]});
             status := code;
             resp_headers := {[ "Access-Control-Allow-Origin" := "*" ]} |},
       []) /\
    (code = 400 /\ (truthy v = false \/ contains "fileUrl" v = Ok false) \/
     code = 500 /\ truthy v = true /\ contains "fileUrl" v <> Ok false).
Proof.
  intros Hm Hj Hobj.
  unfold process_document. rewrite (method_not_options req Hm).
  unfold_handler. rewrite Hj.
  destruct (truthy v) eqn:Ht; simpl.
  2: { do 2 eexists. split; [reflexivity |]. left. auto. }
  destruct (contains "fileUrl" v) as [[|] | e] eqn:Hc; simpl.
  - assert (Hg : exists e, getitem v "fileUrl" = Raise e /\ is_exception e = true).
    { unfold getitem. destruct v; try (eexists; split; reflexivity).
      exfalso. eapply Hobj. reflexivity. }
    destruct Hg as (e & -> & He). rewrite He.
    do 2 eexists. split; [reflexivity |]. right. repeat split; congruence.
  - do 2 eexists. split; [reflexivity |]. left. auto.
  - rewrite (contains_raises_Exception _ _ _ Hc).
    do 2 eexists. split; [reflexivity |]. right. repeat split; congruence.
Qed.

Lemma non_object_body_never_fetched_witness :
  exists (msg : string) (code : Z),
    process_document Samples.all_ok Samples.cfg
      (Samples.post_request (JArr [JStr "fileUrl"])) =
      (Ok {| body := Jsonify (JObj {[ "error" := JStr msg ]});
             status := code;
             resp_headers := {[ "Access-Control-Allow-Origin" := "*" ]} |},
       []) /\
    (code = 400 /\ (truthy (JArr [JStr "fileUrl"]) = false \/
                    contains "fileUrl" (JArr [JStr "fileUrl"]) = Ok false) \/
     code = 500 /\ truthy (JArr [JStr "fileUrl"]) = true /\
       contains "fileUrl" (JArr [JStr "fileUrl"]) <> Ok false).
Proof.
  apply (non_object_body_never_fetched Samples.all_ok Samples.cfg
           (Samples.post_request (JArr [JStr "fileUrl"]))).
  - discriminate.
  - reflexivity.
  - discriminate.
Defined.

(** ** A body on which [get_json()] raises *)

Definition BadRequest : exn :=
  {| exc_cls := OtherException;
     exc_str := "400 Bad Request: Failed to decode JSON object" |}.

Lemma get_json_raises_500_witness :
  process_document Samples.all_ok Samples.cfg
    {| method := "POST"; get_json := Raise BadRequest |} =
    (Ok {| body := Jsonify (JObj {[ "error" := JStr
             "Error processing document: 400 Bad Request: Failed to decode JSON object" ]});
           status := 500;
           resp_headers := {[ "Access-Control-Allow-Origin" := "*" ]} |},
     []).
Proof.
  apply (get_json_raises_500 Samples.all_ok Samples.cfg
           {| method := "POST"; get_json := Raise BadRequest |} BadRequest).
  - discriminate.
  - reflexivity.
  - reflexivity.
Defined.
